(** * Callendar--Van Dusen resistance-to-temperature calculator (cvd.py)

    A shallow embedding of [cvd.py]: the class [CallendarVanDusen] with its
    constructor and its method [temperature], and the module-level script.

    Numbers.  Python floats are modelled by the rationals [Q] they are
    written as ([3.9080e-3] is the rational 3908/1000000); binary64 rounding
    is not modelled.  The program hands its equation to the computer-algebra
    library's [solve], which works symbolically: the roots it returns are
    expressions in the symbol [r], kept here as symbolic root terms over
    rational coefficients.  Their meaning as real numbers is given separately
    ([quad_root_R], over Stdlib's [R]).

    Exceptions are an explicit error type threaded through a small result
    monad. *)

From Stdlib Require Import QArith Qreals Reals Lra Lia Psatz.
From Stdlib Require Import String List Bool.
Import ListNotations.

Open Scope Q_scope.
Open Scope string_scope.

(** ** Exceptions and the result monad *)

Inductive exn : Type :=
| ValueError (msg : string)   (* raise ValueError("Unknown standard %s" % standard) *)
| IndexError                  (* list index out of range, from s[1] *)
| TypeError.                  (* float() of a non-real number, from "%g" % t *)

Inductive result (X : Type) : Type :=
| Ok (x : X)
| Raise (e : exn).

Arguments Ok {X} x.
Arguments Raise {X} e.

Definition bind {X Y : Type} (m : result X) (k : X -> result Y) : result Y :=
  match m with
  | Ok x => k x
  | Raise e => Raise e
  end.

Notation "x <- m ;; k" := (bind m (fun x => k))
  (at level 61, m at next level, right associativity).

(** ** The class CallendarVanDusen *)

(** [Symbol("r")], [Symbol("t")]: a symbol is its name. *)
Definition Symbol : Type := string.

Record CallendarVanDusen : Type := {
  r : Symbol;   (* Resistance *)
  t : Symbol;   (* Temperature *)
  A : Q;
  B : Q;
  C : Q
}.

Definition default_standard : string := "DIN43760".
Definition default_subzero : bool := false.

(** [__init__(self, standard="DIN43760", subzero=False)] *)
Definition init (standard : string) (subzero : bool) : result CallendarVanDusen :=
  let self_r := "r" in
  let self_t := "t" in
  if standard =? "DIN43760" then
    Ok {| r := self_r; t := self_t;
          A := 3.9080e-3;
          B := -5.8019e-7;
          C := if subzero then -4.2735e-12 else 0.0 |}
  else if standard =? "American" then
    Ok {| r := self_r; t := self_t;
          A := 3.9692e-3;
          B := -5.8495e-7;
          C := if subzero then -4.2325e-12 else 0.0 |}
  else if standard =? "ITS-90" then
    Ok {| r := self_r; t := self_t;
          A := 3.9848e-3;
          B := -5.870e-7;
          C := if subzero then -4.0000e-12 else 0.0 |}
  else
    Raise (ValueError ("Unknown standard " ++ standard)).

(** ** The coefficient table of the specification

    Written from the table of the specification (section 4.1), as exact
    fractions, to be compared with what [init] stores. *)

Module SpecTable.

Definition standards : list string := ["DIN43760"; "American"; "ITS-90"].

Definition coeff_A (standard : string) : option Q :=
  if standard =? "DIN43760" then Some (39080 # 10000000)
  else if standard =? "American" then Some (39692 # 10000000)
  else if standard =? "ITS-90" then Some (39848 # 10000000)
  else None.

Definition coeff_B (standard : string) : option Q :=
  if standard =? "DIN43760" then Some (-58019 # 100000000000)
  else if standard =? "American" then Some (-58495 # 100000000000)
  else if standard =? "ITS-90" then Some (-5870 # 10000000000)
  else None.

Definition coeff_C_subzero (standard : string) : option Q :=
  if standard =? "DIN43760" then Some (-42735 # 10000000000000000)
  else if standard =? "American" then Some (-42325 # 10000000000000000)
  else if standard =? "ITS-90" then Some (-40000 # 10000000000000000)
  else None.

End SpecTable.

(** ** The equation solver

    [temperature] builds the equation
    [r = r0*(1.0 + A*t + B*t**2 + C*(t - 100.0)**3)] and passes it to the
    library's [solve], asking for [t].  [solve] treats it as a polynomial in
    [t] whose coefficients contain the symbol [r], and returns one
    expression per root: none when [t] does not occur, one for a linear, two
    for a quadratic (the quadratic formula) and three for a cubic
    (expressions in radicals).  An expression with a value substituted for
    [r] is a closed root term. *)

Inductive sign : Type := Plus | Minus.

Inductive root : Type :=
| LinRoot (a b : Q)                  (* -b/a, the root of a*t + b *)
| QuadRoot (s : sign) (a b c : Q)    (* (-b + s*sqrt(b^2 - 4*a*c)) / (2*a) *)
| CubicRoot (k : nat) (a b c d : Q). (* k-th radical expression for a*t^3 + b*t^2 + c*t + d *)

(** The order in which [solve] lists the two roots of a quadratic is fixed
    by the library (a canonical sort of the expressions), not by this
    program; it is a parameter of the model.  [PlusSecond]: the list is
    [[minus root; plus root]]; [MinusSecond]: [[plus root; minus root]]. *)
Inductive root_order : Type := PlusSecond | MinusSecond.

(** The coefficients in [t] of [r0*(1 + A*t + B*t^2 + C*(t - 100)^3) - r]. *)
Definition coeff3 (cvd : CallendarVanDusen) (r0 : Q) : Q := r0 * C cvd.
Definition coeff2 (cvd : CallendarVanDusen) (r0 : Q) : Q :=
  r0 * (B cvd - 300 * C cvd).
Definition coeff1 (cvd : CallendarVanDusen) (r0 : Q) : Q :=
  r0 * (A cvd + 30000 * C cvd).
Definition coeff0 (cvd : CallendarVanDusen) (r0 rv : Q) : Q :=
  r0 * (1 - 1000000 * C cvd) - rv.

(** [solve(cvd, self.t)]: the list of roots, each still a function of the
    value of the symbol [r]. *)
Definition solve (ord : root_order) (cvd : CallendarVanDusen) (r0 : Q)
  : list (Q -> root) :=
  let a3 := coeff3 cvd r0 in
  let a2 := coeff2 cvd r0 in
  let a1 := coeff1 cvd r0 in
  let a0 := coeff0 cvd r0 in
  if Qeq_bool a3 0 then
    if Qeq_bool a2 0 then
      if Qeq_bool a1 0 then []
      else [fun rv => LinRoot a1 (a0 rv)]
    else
      match ord with
      | PlusSecond =>
          [fun rv => QuadRoot Minus a2 a1 (a0 rv);
           fun rv => QuadRoot Plus a2 a1 (a0 rv)]
      | MinusSecond =>
          [fun rv => QuadRoot Plus a2 a1 (a0 rv);
           fun rv => QuadRoot Minus a2 a1 (a0 rv)]
      end
  else
    [fun rv => CubicRoot 0 a3 a2 a1 (a0 rv);
     fun rv => CubicRoot 1 a3 a2 a1 (a0 rv);
     fun rv => CubicRoot 2 a3 a2 a1 (a0 rv)].

(** [temperature(self, r0, r_measured)]:
    [s = solve(cvd, self.t); t = s[1].subs(self.r, r_measured); return t]. *)
Definition temperature (ord : root_order) (cvd : CallendarVanDusen)
  (r0 r_measured : Q) : result root :=
  let s := solve ord cvd r0 in
  match nth_error s 1 with
  | Some e => Ok (e r_measured)
  | None => Raise IndexError
  end.

(** ** The meaning of roots as numbers *)

Definition disc (a b c : Q) : Q := b * b - 4 * a * c.

Definition sgn (s : sign) : R :=
  match s with Plus => 1%R | Minus => (-1)%R end.

(** The real value of a quadratic root whose discriminant is not negative. *)
Definition quad_root_R (s : sign) (a b c : Q) : R :=
  ((- Q2R b + sgn s * sqrt (Q2R (disc a b c))) / (2 * Q2R a))%R.

(** The governing equation at the real temperature [tv]. *)
Definition cvd_equation (cvd : CallendarVanDusen) (r0 rv : Q) (tv : R) : Prop :=
  (Q2R rv =
   Q2R r0 * (1 + Q2R (A cvd) * tv + Q2R (B cvd) * tv ^ 2
             + Q2R (C cvd) * (tv - 100) ^ 3))%R.

(** The polynomial [solve] works on, at the real point [tv]. *)
Definition cvd_poly (cvd : CallendarVanDusen) (r0 rv : Q) (tv : R) : R :=
  (Q2R (coeff3 cvd r0) * tv ^ 3 + Q2R (coeff2 cvd r0) * tv ^ 2
   + Q2R (coeff1 cvd r0) * tv + Q2R (coeff0 cvd r0 rv))%R.

(** The rated temperature range of the device, as the specification gives
    it (about -200 to +850 degrees); the program itself has no such bound. *)
Definition rated_range (tv : R) : Prop := (-200 <= tv <= 850)%R.

(** The right-hand side of the equation at a rational temperature:
    [r0*(1.0 + A*t + B*t**2 + C*(t - 100.0)**3)]. *)
Definition forward (cvd : CallendarVanDusen) (r0 tq : Q) : Q :=
  r0 * (1.0 + A cvd * tq + B cvd * tq ^ 2 + C cvd * (tq - 100.0) ^ 3).

(** ** The module-level script

    [cvd = CallendarVanDusen(); r_measured = 200.0;
     t = cvd.temperature(r0=500.0, r_measured=r_measured);
     print("Resistance = %g" % (r_measured)); print("Temperature = %g" % (t))]

    A printed line is kept as its template and the number formatted into it:
    the digits [%g] produces depend on binary64 rounding and are not
    modelled.  [%g] first converts its argument with [float()], which raises
    [TypeError] on a number that is not real. *)

Inductive number : Type :=
| PyFloat (q : Q)        (* a Python float *)
| SymNumber (v : root).  (* a number returned by the solver *)

Record line : Type := {
  template : string;
  arg : number
}.

Section Script.

(** Whether the k-th radical expression of a cubic evaluates to a real
    number depends on the branches of the complex cube roots the library
    takes; it is a parameter of the model. *)
Variable cubic_is_real : nat -> Q -> Q -> Q -> Q -> bool.

Definition is_real (v : root) : bool :=
  match v with
  | LinRoot _ _ => true
  | QuadRoot _ a b c => Qle_bool 0 (disc a b c)
  | CubicRoot k a b c d => cubic_is_real k a b c d
  end.

(** [template % (x)] with one [%g] conversion. *)
Definition format_g (tmpl : string) (x : number) : result line :=
  match x with
  | PyFloat _ => Ok {| template := tmpl; arg := x |}
  | SymNumber v =>
      if is_real v then Ok {| template := tmpl; arg := x |}
      else Raise TypeError
  end.

(** The script: what has been printed, and how the run ends. *)
Definition script (ord : root_order) : list line * result unit :=
  let r_measured := 200.0 in
  match (cvd <- init default_standard default_subzero ;;
         temperature ord cvd 500.0 r_measured) with
  | Raise e => ([], Raise e)
  | Ok tv =>
      match format_g "Resistance = %g" (PyFloat r_measured) with
      | Raise e => ([], Raise e)
      | Ok l1 =>
          match format_g "Temperature = %g" (SymNumber tv) with
          | Raise e => ([l1], Raise e)
          | Ok l2 => ([l1; l2], Ok tt)
          end
      end
  end.

End Script.

(** ** Constructor: theorems *)

Lemma standards_cases (standard : string) :
  In standard SpecTable.standards ->
  standard = "DIN43760" \/ standard = "American" \/ standard = "ITS-90".
Proof.
  unfold SpecTable.standards; simpl.
  intros [H | [H | [H | []]]]; subst; auto.
Qed.

Lemma not_standard_eqb (standard : string) :
  ~ In standard SpecTable.standards ->
  (standard =? "DIN43760") = false /\
  (standard =? "American") = false /\
  (standard =? "ITS-90") = false.
Proof.
  unfold SpecTable.standards; simpl; intros H.
  repeat split; apply String.eqb_neq; intros ->; apply H; auto.
Qed.

(** C2.  For each of the three standards the constructor succeeds and stores
    exactly the table's A and B; C is the table's standard-specific value
    when [subzero] is true and is zero for every standard when it is false. *)
Theorem init_coefficients (standard : string) (subzero : bool) :
  In standard SpecTable.standards ->
  exists cvd,
    init standard subzero = Ok cvd /\
    Some (A cvd) = SpecTable.coeff_A standard /\
    Some (B cvd) = SpecTable.coeff_B standard /\
    (subzero = true -> Some (C cvd) = SpecTable.coeff_C_subzero standard) /\
    (subzero = false -> C cvd == 0).
Proof.
  intros Hin.
  destruct (standards_cases standard Hin) as [-> | [-> | ->]];
    eexists; (split; [reflexivity |]); cbn;
    (repeat split; try reflexivity); intros ->; reflexivity.
Qed.

Lemma init_coefficients_witness :
  exists cvd,
    init "DIN43760" false = Ok cvd /\
    Some (A cvd) = SpecTable.coeff_A "DIN43760" /\
    Some (B cvd) = SpecTable.coeff_B "DIN43760" /\
    (false = true -> Some (C cvd) = SpecTable.coeff_C_subzero "DIN43760") /\
    (false = false -> C cvd == 0).
Proof.
  apply (init_coefficients "DIN43760" false).
  simpl; auto.
Defined.

(** C3.  A standard name outside the recognised set makes the constructor
    raise [ValueError] (no instance is produced); for the three recognised
    names it never raises. *)
Theorem init_raises_iff_unknown (standard : string) (subzero : bool) :
  (~ In standard SpecTable.standards ->
     init standard subzero = Raise (ValueError ("Unknown standard " ++ standard)))
  /\
  (In standard SpecTable.standards ->
     exists cvd, init standard subzero = Ok cvd).
Proof.
  split.
  - intros Hn.
    destruct (not_standard_eqb standard Hn) as (H1 & H2 & H3).
    unfold init; rewrite H1, H2, H3; reflexivity.
  - intros Hin.
    destruct (standards_cases standard Hin) as [-> | [-> | ->]];
      eexists; reflexivity.
Qed.

Lemma init_raises_iff_unknown_witness :
  init "Foo" false = Raise (ValueError "Unknown standard Foo").
Proof.
  apply (proj1 (init_raises_iff_unknown "Foo" false)).
  unfold SpecTable.standards; simpl.
  intros [H | [H | [H | []]]]; discriminate H.
Defined.

(** ** Roots as real numbers: lemmas *)

Lemma Q2R_const (z : Z) : Q2R (inject_Z z) = IZR z.
Proof. unfold Q2R; simpl. field. Qed.

Lemma cvd_poly_equation (cvd : CallendarVanDusen) (r0 rv : Q) (tv : R) :
  cvd_equation cvd r0 rv tv <-> cvd_poly cvd r0 rv tv = 0%R.
Proof.
  unfold cvd_equation, cvd_poly, coeff3, coeff2, coeff1, coeff0.
  repeat (rewrite ?Q2R_mult, ?Q2R_plus, ?Q2R_minus).
  change 300 with (inject_Z 300). change 30000 with (inject_Z 30000).
  change 1000000 with (inject_Z 1000000). change 1 with (inject_Z 1).
  rewrite !Q2R_const.
  split; intros H; nra.
Qed.

Lemma Q2R_zero : Q2R 0 = 0%R.
Proof. unfold Q2R; simpl; lra. Qed.

Lemma Q2R_nonzero (a : Q) : ~ a == 0 -> Q2R a <> 0%R.
Proof.
  intros Ha E. apply Ha. apply eqR_Qeq. rewrite E, Q2R_zero. reflexivity.
Qed.

Lemma Q2R_disc (a b c : Q) :
  Q2R (disc a b c) = (Q2R b * Q2R b - 4 * Q2R a * Q2R c)%R.
Proof.
  unfold disc. rewrite Q2R_minus, !Q2R_mult.
  change 4 with (inject_Z 4). rewrite Q2R_const. reflexivity.
Qed.

Lemma quad_root_satisfies (s : sign) (a b c : Q) :
  ~ a == 0 -> 0 <= disc a b c ->
  let x := quad_root_R s a b c in
  (Q2R a * x ^ 2 + Q2R b * x + Q2R c = 0)%R.
Proof.
  intros Ha Hd x.
  pose proof (Q2R_nonzero a Ha) as Ha'.
  assert (Hd' : (0 <= Q2R (disc a b c))%R).
  { apply Qle_Rle in Hd. rewrite Q2R_zero in Hd. exact Hd. }
  pose proof (sqrt_sqrt _ Hd') as Hs.
  subst x; unfold quad_root_R.
  set (w := sqrt (Q2R (disc a b c))) in *.
  assert (Hsg : (sgn s * sgn s = 1)%R) by (destruct s; simpl; lra).
  rewrite Q2R_disc in Hs.
  field_simplify_eq; [| lra].
  nra.
Qed.

Lemma quad_no_real_root (a b c : Q) (x : R) :
  disc a b c < 0 ->
  (Q2R a * x ^ 2 + Q2R b * x + Q2R c <> 0)%R.
Proof.
  intros Hd E.
  apply Qlt_Rlt in Hd. rewrite Q2R_zero, Q2R_disc in Hd.
  pose proof (pow2_ge_0 (2 * Q2R a * x + Q2R b)) as Hsq.
  assert (K : ((2 * Q2R a * x + Q2R b) ^ 2 =
               Q2R b * Q2R b - 4 * Q2R a * Q2R c
               + 4 * Q2R a * (Q2R a * x ^ 2 + Q2R b * x + Q2R c))%R) by ring.
  rewrite E in K. lra.
Qed.

(** ** The solver's list: lemmas *)

Lemma Qeq_bool_false (x y : Q) : ~ x == y -> Qeq_bool x y = false.
Proof.
  intros H. destruct (Qeq_bool x y) eqn:E; [| reflexivity].
  exfalso; apply H, Qeq_bool_iff, E.
Qed.

Lemma Qeq_bool_true (x y : Q) : x == y -> Qeq_bool x y = true.
Proof. apply Qeq_bool_iff. Qed.

Lemma solve_cubic (ord : root_order) (cvd : CallendarVanDusen) (r0 : Q) :
  ~ coeff3 cvd r0 == 0 ->
  solve ord cvd r0 =
    [fun rv => CubicRoot 0 (coeff3 cvd r0) (coeff2 cvd r0) (coeff1 cvd r0)
                 (coeff0 cvd r0 rv);
     fun rv => CubicRoot 1 (coeff3 cvd r0) (coeff2 cvd r0) (coeff1 cvd r0)
                 (coeff0 cvd r0 rv);
     fun rv => CubicRoot 2 (coeff3 cvd r0) (coeff2 cvd r0) (coeff1 cvd r0)
                 (coeff0 cvd r0 rv)].
Proof.
  intros H. unfold solve. rewrite (Qeq_bool_false _ _ H). reflexivity.
Qed.

Lemma solve_quadratic (ord : root_order) (cvd : CallendarVanDusen) (r0 : Q) :
  coeff3 cvd r0 == 0 -> ~ coeff2 cvd r0 == 0 ->
  solve ord cvd r0 =
    match ord with
    | PlusSecond =>
        [fun rv => QuadRoot Minus (coeff2 cvd r0) (coeff1 cvd r0) (coeff0 cvd r0 rv);
         fun rv => QuadRoot Plus (coeff2 cvd r0) (coeff1 cvd r0) (coeff0 cvd r0 rv)]
    | MinusSecond =>
        [fun rv => QuadRoot Plus (coeff2 cvd r0) (coeff1 cvd r0) (coeff0 cvd r0 rv);
         fun rv => QuadRoot Minus (coeff2 cvd r0) (coeff1 cvd r0) (coeff0 cvd r0 rv)]
    end.
Proof.
  intros H3 H2. unfold solve.
  rewrite (Qeq_bool_true _ _ H3), (Qeq_bool_false _ _ H2). reflexivity.
Qed.

Lemma solve_r0_zero (ord : root_order) (cvd : CallendarVanDusen) (r0 : Q) :
  r0 == 0 -> solve ord cvd r0 = [].
Proof.
  intros H. unfold solve, coeff3, coeff2, coeff1.
  rewrite !Qeq_bool_true; [reflexivity | | |]; rewrite H; ring.
Qed.

(** What the constructor guarantees about the coefficients it stores. *)
Lemma init_inv (standard : string) (subzero : bool) (cvd : CallendarVanDusen) :
  init standard subzero = Ok cvd ->
  0 < A cvd /\ B cvd < 0 /\
  (subzero = true -> C cvd < 0 /\ 0 < A cvd + 30000 * C cvd) /\
  (subzero = false -> C cvd == 0).
Proof.
  unfold init.
  destruct (standard =? "DIN43760");
    [| destruct (standard =? "American");
       [| destruct (standard =? "ITS-90"); [| discriminate]]];
    intros E; injection E as <-; cbn;
    (split; [reflexivity |]); (split; [reflexivity |]);
    (split; intros ->; [split |]); reflexivity.
Qed.

(** For a constructed model the equation has degree three (subzero) or two
    (otherwise) whenever [r0] is not zero. *)
Lemma init_degree (standard : string) (subzero : bool) (cvd : CallendarVanDusen)
  (r0 : Q) :
  init standard subzero = Ok cvd -> ~ r0 == 0 ->
  (subzero = true /\ ~ coeff3 cvd r0 == 0) \/
  (subzero = false /\ coeff3 cvd r0 == 0 /\ ~ coeff2 cvd r0 == 0).
Proof.
  intros Hi Hr.
  destruct (init_inv _ _ _ Hi) as (HA & HB & Ht & Hf).
  destruct subzero; [left | right]; (split; [reflexivity |]).
  - destruct (Ht eq_refl) as [HC _]. unfold coeff3. intros E.
    apply Qmult_integral in E. destruct E as [E | E]; [auto |].
    rewrite E in HC. discriminate HC.
  - pose proof (Hf eq_refl) as HC. unfold coeff3, coeff2. split.
    + rewrite HC. ring.
    + intros E. apply Qmult_integral in E. destruct E as [E | E]; [auto |].
      rewrite HC in E. ring_simplify in E. rewrite E in HB. discriminate HB.
Qed.

(** With [r0] not zero, a constructed model's [temperature] raises nothing:
    it returns the expression at position 1 with [r_measured] substituted. *)
Lemma temperature_returns_second (ord : root_order) (standard : string)
  (subzero : bool) (cvd : CallendarVanDusen) (r0 rv : Q) :
  init standard subzero = Ok cvd -> ~ r0 == 0 ->
  exists e, nth_error (solve ord cvd r0) 1 = Some e /\
            temperature ord cvd r0 rv = Ok (e rv).
Proof.
  intros Hi Hr. unfold temperature.
  destruct (init_degree _ _ _ r0 Hi Hr) as [[_ H3] | (_ & H3 & H2)].
  - rewrite (solve_cubic ord _ _ H3). eexists; split; reflexivity.
  - rewrite (solve_quadratic ord _ _ H3 H2).
    destruct ord; eexists; split; reflexivity.
Qed.

(** The coefficients of a model without the cubic term, as real numbers. *)
Lemma coeffs_R_quadratic (cvd : CallendarVanDusen) (r0 rv : Q) :
  C cvd == 0 ->
  Q2R (coeff3 cvd r0) = 0%R /\
  Q2R (coeff2 cvd r0) = (Q2R r0 * Q2R (B cvd))%R /\
  Q2R (coeff1 cvd r0) = (Q2R r0 * Q2R (A cvd))%R /\
  Q2R (coeff0 cvd r0 rv) = (Q2R r0 - Q2R rv)%R.
Proof.
  intros HC. unfold coeff3, coeff2, coeff1, coeff0.
  repeat split.
  - rewrite <- Q2R_zero. apply Qeq_eqR. rewrite HC. ring.
  - rewrite <- Q2R_mult. apply Qeq_eqR. rewrite HC. ring.
  - rewrite <- Q2R_mult. apply Qeq_eqR. rewrite HC. ring.
  - rewrite <- Q2R_minus. apply Qeq_eqR. rewrite HC. ring.
Qed.

Lemma cvd_poly_quadratic (cvd : CallendarVanDusen) (r0 rv : Q) (tv : R) :
  coeff3 cvd r0 == 0 ->
  cvd_poly cvd r0 rv tv =
    (Q2R (coeff2 cvd r0) * tv ^ 2 + Q2R (coeff1 cvd r0) * tv
     + Q2R (coeff0 cvd r0 rv))%R.
Proof.
  intros H3. unfold cvd_poly.
  apply Qeq_eqR in H3. rewrite Q2R_zero in H3. rewrite H3. ring.
Qed.

(** Whichever of the two quadratic roots is listed second, it solves the
    governing equation when the discriminant is not negative. *)
Lemma quadratic_root_solves_equation (s : sign) (cvd : CallendarVanDusen)
  (r0 rv : Q) :
  coeff3 cvd r0 == 0 -> ~ coeff2 cvd r0 == 0 ->
  0 <= disc (coeff2 cvd r0) (coeff1 cvd r0) (coeff0 cvd r0 rv) ->
  cvd_equation cvd r0 rv
    (quad_root_R s (coeff2 cvd r0) (coeff1 cvd r0) (coeff0 cvd r0 rv)).
Proof.
  intros H3 H2 Hd.
  apply cvd_poly_equation. rewrite (cvd_poly_quadratic _ _ _ _ H3).
  apply (quad_root_satisfies s _ _ _ H2 Hd).
Qed.

(** ** Which root is listed second decides the value at [r_measured = r0]

    At [r_measured = r0] the quadratic has the roots [0] and [-A/B].  The
    value [temperature] returns there is [0] when the plus root is listed
    second and [-A/B] (a positive number) when the minus root is. *)

Lemma second_root_at_r0_plus_second (standard : string)
  (cvd : CallendarVanDusen) (r0 : Q) :
  init standard false = Ok cvd -> 0 < r0 ->
  exists a b c,
    temperature PlusSecond cvd r0 r0 = Ok (QuadRoot Plus a b c) /\
    quad_root_R Plus a b c = 0%R.
Proof.
  intros Hi Hr.
  assert (Hr0 : ~ r0 == 0) by (intros E; rewrite E in Hr; discriminate Hr).
  destruct (init_inv _ _ _ Hi) as (HA & HB & _ & Hf).
  pose proof (Hf eq_refl) as HC.
  destruct (init_degree _ _ _ r0 Hi Hr0) as [[E _] | (_ & H3 & H2)];
    [discriminate E |].
  exists (coeff2 cvd r0), (coeff1 cvd r0), (coeff0 cvd r0 r0). split.
  - unfold temperature. rewrite (solve_quadratic _ _ _ H3 H2). reflexivity.
  - destruct (coeffs_R_quadratic cvd r0 r0 HC) as (_ & E2 & E1 & E0).
    unfold quad_root_R. rewrite Q2R_disc, E0, E1.
    apply Qlt_Rlt in Hr, HA. rewrite Q2R_zero in Hr, HA.
    replace (Q2R r0 * Q2R (A cvd) * (Q2R r0 * Q2R (A cvd))
             - 4 * Q2R (coeff2 cvd r0) * (Q2R r0 - Q2R r0))%R
      with (Rsqr (Q2R r0 * Q2R (A cvd))) by (unfold Rsqr; ring).
    rewrite sqrt_Rsqr by nra.
    pose proof (Q2R_nonzero _ H2) as Ha.
    simpl. field. exact Ha.
Qed.

Lemma second_root_at_r0_minus_second (standard : string)
  (cvd : CallendarVanDusen) (r0 : Q) :
  init standard false = Ok cvd -> 0 < r0 ->
  exists a b c,
    temperature MinusSecond cvd r0 r0 = Ok (QuadRoot Minus a b c) /\
    quad_root_R Minus a b c = (- Q2R (A cvd) / Q2R (B cvd))%R /\
    (0 < - Q2R (A cvd) / Q2R (B cvd))%R.
Proof.
  intros Hi Hr.
  assert (Hr0 : ~ r0 == 0) by (intros E; rewrite E in Hr; discriminate Hr).
  destruct (init_inv _ _ _ Hi) as (HA & HB & _ & Hf).
  pose proof (Hf eq_refl) as HC.
  destruct (init_degree _ _ _ r0 Hi Hr0) as [[E _] | (_ & H3 & H2)];
    [discriminate E |].
  exists (coeff2 cvd r0), (coeff1 cvd r0), (coeff0 cvd r0 r0).
  apply Qlt_Rlt in Hr, HA, HB. rewrite Q2R_zero in Hr, HA, HB.
  split; [| split].
  - unfold temperature. rewrite (solve_quadratic _ _ _ H3 H2). reflexivity.
  - destruct (coeffs_R_quadratic cvd r0 r0 HC) as (_ & E2 & E1 & E0).
    unfold quad_root_R. rewrite Q2R_disc, E0, E1, E2.
    replace (Q2R r0 * Q2R (A cvd) * (Q2R r0 * Q2R (A cvd))
             - 4 * (Q2R r0 * Q2R (B cvd)) * (Q2R r0 - Q2R r0))%R
      with (Rsqr (Q2R r0 * Q2R (A cvd))) by (unfold Rsqr; ring).
    rewrite sqrt_Rsqr by nra.
    simpl. field. split; lra.
  - replace (- Q2R (A cvd) / Q2R (B cvd))%R
      with (Q2R (A cvd) / - Q2R (B cvd))%R by (field; lra).
    apply Rdiv_lt_0_compat; lra.
Qed.

(** ** Which root is listed second decides the round trip

    For a model without the cubic term and a temperature [tq] on the rising
    branch of the parabola ([A + 2*B*tq >= 0], which holds up to about
    3367 degrees), inverting the forward polynomial gives back [tq] when the
    plus root is listed second, and the mirror value [-A/B - tq] when the
    minus root is. *)

Lemma forward_R_quadratic (cvd : CallendarVanDusen) (r0 tq : Q) :
  C cvd == 0 ->
  Q2R (forward cvd r0 tq) =
    (Q2R r0 * (1 + Q2R (A cvd) * Q2R tq + Q2R (B cvd) * (Q2R tq * Q2R tq)))%R.
Proof.
  intros HC.
  transitivity (Q2R (r0 * (inject_Z 1 + A cvd * tq + B cvd * (tq * tq)))).
  - apply Qeq_eqR. unfold forward. rewrite HC. ring.
  - rewrite !Q2R_mult, !Q2R_plus, !Q2R_mult, Q2R_const. reflexivity.
Qed.

Lemma round_trip_disc (cvd : CallendarVanDusen) (r0 tq : Q) :
  C cvd == 0 ->
  Q2R (disc (coeff2 cvd r0) (coeff1 cvd r0) (coeff0 cvd r0 (forward cvd r0 tq))) =
    Rsqr (Q2R r0 * (Q2R (A cvd) + 2 * Q2R (B cvd) * Q2R tq)).
Proof.
  intros HC.
  destruct (coeffs_R_quadratic cvd r0 (forward cvd r0 tq) HC)
    as (_ & E2 & E1 & E0).
  rewrite Q2R_disc, E0, E1, E2, (forward_R_quadratic cvd r0 tq HC).
  unfold Rsqr. ring.
Qed.

Lemma round_trip_plus_second (standard : string) (cvd : CallendarVanDusen)
  (r0 tq : Q) :
  init standard false = Ok cvd -> 0 < r0 ->
  0 <= A cvd + 2 * B cvd * tq ->
  exists a b c,
    temperature PlusSecond cvd r0 (forward cvd r0 tq) = Ok (QuadRoot Plus a b c) /\
    quad_root_R Plus a b c = Q2R tq.
Proof.
  intros Hi Hr Ht.
  assert (Hr0 : ~ r0 == 0) by (intros E; rewrite E in Hr; discriminate Hr).
  destruct (init_inv _ _ _ Hi) as (HA & HB & _ & Hf).
  pose proof (Hf eq_refl) as HC.
  destruct (init_degree _ _ _ r0 Hi Hr0) as [[E _] | (_ & H3 & H2)];
    [discriminate E |].
  exists (coeff2 cvd r0), (coeff1 cvd r0), (coeff0 cvd r0 (forward cvd r0 tq)).
  split.
  - unfold temperature. rewrite (solve_quadratic _ _ _ H3 H2). reflexivity.
  - destruct (coeffs_R_quadratic cvd r0 (forward cvd r0 tq) HC)
      as (_ & E2 & E1 & _).
    apply Qlt_Rlt in Hr, HB. apply Qle_Rle in Ht.
    rewrite Q2R_zero in Hr, HB, Ht.
    rewrite Q2R_plus, !Q2R_mult in Ht.
    change 2 with (inject_Z 2) in Ht. rewrite Q2R_const in Ht.
    unfold quad_root_R.
    rewrite (round_trip_disc cvd r0 tq HC), sqrt_Rsqr by nra.
    rewrite E1, E2. simpl. field. split; lra.
Qed.

Lemma round_trip_minus_second (standard : string) (cvd : CallendarVanDusen)
  (r0 tq : Q) :
  init standard false = Ok cvd -> 0 < r0 ->
  0 <= A cvd + 2 * B cvd * tq ->
  exists a b c,
    temperature MinusSecond cvd r0 (forward cvd r0 tq) = Ok (QuadRoot Minus a b c) /\
    quad_root_R Minus a b c = (- Q2R (A cvd) / Q2R (B cvd) - Q2R tq)%R.
Proof.
  intros Hi Hr Ht.
  assert (Hr0 : ~ r0 == 0) by (intros E; rewrite E in Hr; discriminate Hr).
  destruct (init_inv _ _ _ Hi) as (HA & HB & _ & Hf).
  pose proof (Hf eq_refl) as HC.
  destruct (init_degree _ _ _ r0 Hi Hr0) as [[E _] | (_ & H3 & H2)];
    [discriminate E |].
  exists (coeff2 cvd r0), (coeff1 cvd r0), (coeff0 cvd r0 (forward cvd r0 tq)).
  split.
  - unfold temperature. rewrite (solve_quadratic _ _ _ H3 H2). reflexivity.
  - destruct (coeffs_R_quadratic cvd r0 (forward cvd r0 tq) HC)
      as (_ & E2 & E1 & _).
    apply Qlt_Rlt in Hr, HB. apply Qle_Rle in Ht.
    rewrite Q2R_zero in Hr, HB, Ht.
    rewrite Q2R_plus, !Q2R_mult in Ht.
    change 2 with (inject_Z 2) in Ht. rewrite Q2R_const in Ht.
    unfold quad_root_R.
    rewrite (round_trip_disc cvd r0 tq HC), sqrt_Rsqr by nra.
    rewrite E1, E2. simpl. field. split; lra.
Qed.

(** ** [temperature]: errors and their absence *)

(** C10.  [temperature] indexes the solver's list at position 1 without a
    guard: whenever the list has fewer than two entries, and in particular
    when [r0] is zero (the unknown then drops out of the equation and the
    list is empty, [solve_r0_zero]), the call raises [IndexError]. *)
Theorem temperature_index_error (ord : root_order) (cvd : CallendarVanDusen)
  (r0 rv : Q) :
  r0 == 0 \/ (length (solve ord cvd r0) < 2)%nat ->
  temperature ord cvd r0 rv = Raise IndexError.
Proof.
  intros H.
  assert (Hlen : (length (solve ord cvd r0) < 2)%nat).
  { destruct H as [H | H]; [| exact H].
    rewrite (solve_r0_zero ord cvd r0 H). simpl. lia. }
  unfold temperature.
  destruct (nth_error (solve ord cvd r0) 1) eqn:E; [| reflexivity].
  assert (Hs : nth_error (solve ord cvd r0) 1 <> None) by (rewrite E; discriminate).
  apply nth_error_Some in Hs. lia.
Qed.

Lemma temperature_index_error_witness :
  temperature PlusSecond
    {| r := "r"; t := "t"; A := 3.9080e-3; B := -5.8019e-7; C := 0.0 |}
    0 200.0 = Raise IndexError.
Proof.
  apply temperature_index_error.
  left. reflexivity.
Defined.

(** C7, as the code has it.  There is no check of [r0]: with a negative [r0]
    a constructed model's [temperature] raises nothing and returns the
    expression listed second by the solver, with [r_measured] substituted. *)
Theorem temperature_negative_r0_returns (ord : root_order) (standard : string)
  (subzero : bool) (cvd : CallendarVanDusen) (r0 rv : Q) :
  init standard subzero = Ok cvd -> r0 < 0 ->
  exists e, nth_error (solve ord cvd r0) 1 = Some e /\
            temperature ord cvd r0 rv = Ok (e rv).
Proof.
  intros Hi Hr.
  apply (temperature_returns_second ord standard subzero cvd r0 rv Hi).
  intros E. rewrite E in Hr. discriminate Hr.
Qed.

Lemma temperature_negative_r0_returns_witness :
  exists cvd,
    init "DIN43760" false = Ok cvd /\
    exists e, nth_error (solve PlusSecond cvd (-1)) 1 = Some e /\
              temperature PlusSecond cvd (-1) 100 = Ok (e 100).
Proof.
  eexists. split; [reflexivity |].
  apply (temperature_negative_r0_returns PlusSecond "DIN43760" false);
    reflexivity.
Defined.

(** C7 as stated fails: with [r0 = -1] (and [r_measured = 100]) the default
    model's [temperature] returns a root, whichever root is listed second,
    and that root is a real number. *)
Lemma temperature_negative_r0_counterexample :
  -1 <= 0 /\
  exists cvd,
    init "DIN43760" false = Ok cvd /\
    temperature PlusSecond cvd (-1) 100 =
      Ok (QuadRoot Plus (coeff2 cvd (-1)) (coeff1 cvd (-1)) (coeff0 cvd (-1) 100)) /\
    temperature MinusSecond cvd (-1) 100 =
      Ok (QuadRoot Minus (coeff2 cvd (-1)) (coeff1 cvd (-1)) (coeff0 cvd (-1) 100)) /\
    0 <= disc (coeff2 cvd (-1)) (coeff1 cvd (-1)) (coeff0 cvd (-1) 100).
Proof.
  split; [discriminate |].
  eexists. split; [reflexivity |].
  split; [reflexivity |]. split; [reflexivity |].
  vm_compute. discriminate.
Qed.

(** C8, as the code has it.  There is no "no solution" outcome.  For a
    constructed model and [r0 > 0], when the governing equation has no real
    solution in the rated range, [temperature] still raises nothing and
    returns the expression the solver lists second with [r_measured]
    substituted, unchecked.  With the subzero term disabled that value is
    the second-listed root of the governing quadratic, and it is either not
    a real number (negative discriminant) or a real solution of the
    equation lying outside the rated range. *)
Theorem temperature_no_root_in_range_returns (ord : root_order)
  (standard : string) (subzero : bool) (cvd : CallendarVanDusen) (r0 rv : Q) :
  init standard subzero = Ok cvd -> 0 < r0 ->
  (forall tv : R, rated_range tv -> ~ cvd_equation cvd r0 rv tv) ->
  exists e,
    nth_error (solve ord cvd r0) 1 = Some e /\
    temperature ord cvd r0 rv = Ok (e rv) /\
    (subzero = false ->
     let a := coeff2 cvd r0 in
     let b := coeff1 cvd r0 in
     let c := coeff0 cvd r0 rv in
     let s := match ord with PlusSecond => Plus | MinusSecond => Minus end in
     e rv = QuadRoot s a b c /\
     (disc a b c < 0 \/
      (0 <= disc a b c /\
       cvd_equation cvd r0 rv (quad_root_R s a b c) /\
       ~ rated_range (quad_root_R s a b c)))).
Proof.
  intros Hi Hr Hno.
  assert (Hr0 : ~ r0 == 0) by (intros E; rewrite E in Hr; discriminate Hr).
  destruct (init_degree _ _ _ r0 Hi Hr0) as [[-> H3] | (-> & H3 & H2)].
  - unfold temperature. rewrite (solve_cubic ord _ _ H3).
    eexists. split; [reflexivity |]. split; [reflexivity |].
    intros E. discriminate E.
  - unfold temperature. rewrite (solve_quadratic ord _ _ H3 H2).
    exists (fun x => QuadRoot
                       (match ord with PlusSecond => Plus | MinusSecond => Minus end)
                       (coeff2 cvd r0) (coeff1 cvd r0) (coeff0 cvd r0 x)).
    split; [destruct ord; reflexivity |].
    split; [destruct ord; reflexivity |].
    intros _. cbv zeta. split; [reflexivity |].
    destruct (Qlt_le_dec (disc (coeff2 cvd r0) (coeff1 cvd r0) (coeff0 cvd r0 rv)) 0)
      as [Hlt | Hle]; [left; exact Hlt | right].
    split; [exact Hle |].
    pose proof (quadratic_root_solves_equation
                  (match ord with PlusSecond => Plus | MinusSecond => Minus end)
                  cvd r0 rv H3 H2 Hle) as Heq.
    split; [exact Heq |].
    intros Hin. exact (Hno _ Hin Heq).
Qed.

(** The default model at [r0 = 100], [r_measured = 10000]: the equation has
    no real solution. *)
Lemma no_real_temperature_100_10000 (cvd : CallendarVanDusen) (tv : R) :
  init "DIN43760" false = Ok cvd -> ~ cvd_equation cvd 100 10000 tv.
Proof.
  intros Hi He. injection Hi as <-.
  apply cvd_poly_equation in He.
  rewrite cvd_poly_quadratic in He by reflexivity.
  revert He. apply quad_no_real_root. reflexivity.
Qed.

(** The default model at [r0 = 100], [r_measured = 500]: the equation has
    real solutions, but none in the rated range. *)
Lemma no_rated_temperature_100_500 (cvd : CallendarVanDusen) (tv : R) :
  init "DIN43760" false = Ok cvd ->
  rated_range tv -> ~ cvd_equation cvd 100 500 tv.
Proof.
  intros Hi [Hlo Hhi] He. injection Hi as <-.
  unfold cvd_equation in He. cbn [A B C] in He.
  unfold Q2R in He. simpl in He.
  assert (Hsq : (0 <= tv ^ 2)%R) by apply pow2_ge_0.
  nra.
Qed.

Lemma temperature_no_root_in_range_returns_witness :
  exists cvd,
    init "DIN43760" false = Ok cvd /\
    exists e,
      nth_error (solve PlusSecond cvd 100) 1 = Some e /\
      temperature PlusSecond cvd 100 500 = Ok (e 500) /\
      (false = false ->
       let a := coeff2 cvd 100 in
       let b := coeff1 cvd 100 in
       let c := coeff0 cvd 100 500 in
       let s := Plus in
       e 500 = QuadRoot s a b c /\
       (disc a b c < 0 \/
        (0 <= disc a b c /\
         cvd_equation cvd 100 500 (quad_root_R s a b c) /\
         ~ rated_range (quad_root_R s a b c)))).
Proof.
  eexists. split; [reflexivity |].
  apply (temperature_no_root_in_range_returns PlusSecond "DIN43760" false);
    [reflexivity | reflexivity |].
  intros tv. apply no_rated_temperature_100_500. reflexivity.
Defined.

(** C8 as stated fails: at [r0 = 100], [r_measured = 10000] the default
    model's equation has no real solution, yet [temperature] returns a value
    (whichever root is listed second), a root with negative discriminant. *)
Lemma temperature_no_solution_counterexample :
  0 < 100 /\
  exists cvd,
    init "DIN43760" false = Ok cvd /\
    (forall tv : R, ~ cvd_equation cvd 100 10000 tv) /\
    temperature PlusSecond cvd 100 10000 =
      Ok (QuadRoot Plus (coeff2 cvd 100) (coeff1 cvd 100) (coeff0 cvd 100 10000)) /\
    temperature MinusSecond cvd 100 10000 =
      Ok (QuadRoot Minus (coeff2 cvd 100) (coeff1 cvd 100) (coeff0 cvd 100 10000)) /\
    disc (coeff2 cvd 100) (coeff1 cvd 100) (coeff0 cvd 100 10000) < 0.
Proof.
  split; [reflexivity |].
  eexists. split; [reflexivity |].
  split; [intros tv; apply no_real_temperature_100_10000; reflexivity |].
  split; [reflexivity |]. split; reflexivity.
Qed.

(** ** The script *)

(** C9.  Run without arguments, the script constructs the model for the
    default standard "DIN43760" with subzero disabled, evaluates the one
    reading [r0 = 500.0], [r_measured = 200.0], and prints exactly two
    lines, each a [%g] rendering: "Resistance = " with [r_measured], then
    "Temperature = " with the value [temperature] returned; the run ends
    without an exception. *)
Theorem script_prints_two_lines (cubic_is_real : nat -> Q -> Q -> Q -> Q -> bool)
  (ord : root_order) :
  default_standard = "DIN43760" /\ default_subzero = false /\
  exists cvd tv,
    init "DIN43760" false = Ok cvd /\
    temperature ord cvd 500.0 200.0 = Ok tv /\
    script cubic_is_real ord =
      ([ {| template := "Resistance = %g"; arg := PyFloat 200.0 |};
         {| template := "Temperature = %g"; arg := SymNumber tv |} ],
       Ok tt).
Proof.
  split; [reflexivity |]. split; [reflexivity |].
  destruct ord; eexists; eexists;
    (split; [reflexivity |]); (split; [reflexivity |]);
    vm_compute; reflexivity.
Qed.

(** ** Further properties of the constructor *)

(** X1.  For one standard, the [subzero] flag changes the cubic coefficient
    only: the models built with and without it carry the same symbols and
    the same A and B; C is negative with the flag and zero without it. *)
Theorem init_subzero_changes_only_C (standard : string)
  (c1 c2 : CallendarVanDusen) :
  init standard true = Ok c1 -> init standard false = Ok c2 ->
  r c1 = r c2 /\ t c1 = t c2 /\ A c1 = A c2 /\ B c1 = B c2 /\
  C c1 < 0 /\ C c2 == 0.
Proof.
  unfold init.
  destruct (standard =? "DIN43760");
    [| destruct (standard =? "American");
       [| destruct (standard =? "ITS-90"); [| discriminate]]];
    intros E1 E2; injection E1 as <-; injection E2 as <-; cbn;
    repeat split; reflexivity.
Qed.

Lemma init_subzero_changes_only_C_witness :
  exists c1 c2,
    init "ITS-90" true = Ok c1 /\ init "ITS-90" false = Ok c2 /\
    r c1 = r c2 /\ t c1 = t c2 /\ A c1 = A c2 /\ B c1 = B c2 /\
    C c1 < 0 /\ C c2 == 0.
Proof.
  eexists. eexists. split; [reflexivity |]. split; [reflexivity |].
  apply (init_subzero_changes_only_C "ITS-90"); reflexivity.
Defined.

(** ** Further properties of [temperature] *)

(** X3.  On a constructed model [temperature] fails for exactly one kind of
    input: it raises if and only if [r0] is zero, and the exception is then
    [IndexError]; no other exception leaves it. *)
Theorem temperature_raises_iff_r0_zero (ord : root_order) (standard : string)
  (subzero : bool) (cvd : CallendarVanDusen) (r0 rv : Q) :
  init standard subzero = Ok cvd ->
  (forall e, temperature ord cvd r0 rv = Raise e -> e = IndexError /\ r0 == 0)
  /\ (r0 == 0 -> temperature ord cvd r0 rv = Raise IndexError).
Proof.
  intros Hi. split.
  - intros e He.
    destruct (Qeq_dec r0 0) as [Hz | Hnz].
    + split; [| exact Hz].
      unfold temperature in He. rewrite (solve_r0_zero ord cvd r0 Hz) in He.
      simpl in He. injection He as <-. reflexivity.
    + destruct (temperature_returns_second ord standard subzero cvd r0 rv Hi Hnz)
        as (f & _ & Hf).
      rewrite Hf in He. discriminate He.
  - intros Hz. unfold temperature.
    rewrite (solve_r0_zero ord cvd r0 Hz). reflexivity.
Qed.

Lemma temperature_raises_iff_r0_zero_witness :
  exists cvd,
    init "DIN43760" true = Ok cvd /\
    (forall e, temperature PlusSecond cvd 0 138.5 = Raise e ->
               e = IndexError /\ 0 == 0) /\
    (0 == 0 -> temperature PlusSecond cvd 0 138.5 = Raise IndexError).
Proof.
  eexists. split; [reflexivity |].
  apply (temperature_raises_iff_r0_zero PlusSecond "DIN43760" true).
  reflexivity.
Defined.

(** X4.  On a model built without the subzero term and with [r0] not zero,
    [temperature] returns a root of the quadratic; when its discriminant is
    not negative the value returned solves the governing equation, and when
    it is negative the governing equation has no real solution at all. *)
Theorem temperature_value_solves_equation (ord : root_order)
  (standard : string) (cvd : CallendarVanDusen) (r0 rv : Q) :
  init standard false = Ok cvd -> ~ r0 == 0 ->
  exists s a b c,
    temperature ord cvd r0 rv = Ok (QuadRoot s a b c) /\
    (0 <= disc a b c -> cvd_equation cvd r0 rv (quad_root_R s a b c)) /\
    (disc a b c < 0 -> forall tv : R, ~ cvd_equation cvd r0 rv tv).
Proof.
  intros Hi Hr0.
  destruct (init_degree _ _ _ r0 Hi Hr0) as [[E _] | (_ & H3 & H2)];
    [discriminate E |].
  exists (match ord with PlusSecond => Plus | MinusSecond => Minus end),
    (coeff2 cvd r0), (coeff1 cvd r0), (coeff0 cvd r0 rv).
  split; [| split].
  - unfold temperature. rewrite (solve_quadratic _ _ _ H3 H2).
    destruct ord; reflexivity.
  - intros Hd. apply (quadratic_root_solves_equation _ cvd r0 rv H3 H2 Hd).
  - intros Hd tv He. apply cvd_poly_equation in He.
    rewrite (cvd_poly_quadratic _ _ _ _ H3) in He.
    exact (quad_no_real_root _ _ _ tv Hd He).
Qed.

Lemma temperature_value_solves_equation_witness :
  exists cvd,
    init "DIN43760" false = Ok cvd /\
    exists s a b c,
      temperature MinusSecond cvd 100.0 138.5 = Ok (QuadRoot s a b c) /\
      (0 <= disc a b c -> cvd_equation cvd 100.0 138.5 (quad_root_R s a b c)) /\
      (disc a b c < 0 -> forall tv : R, ~ cvd_equation cvd 100.0 138.5 tv).
Proof.
  eexists. split; [reflexivity |].
  apply (temperature_value_solves_equation MinusSecond "DIN43760");
    [reflexivity | discriminate].
Defined.

(** The discriminant of the quadratic of a model without the cubic term. *)
Lemma disc_quadratic (cvd : CallendarVanDusen) (r0 rv : Q) :
  C cvd == 0 ->
  disc (coeff2 cvd r0) (coeff1 cvd r0) (coeff0 cvd r0 rv) ==
    r0 * (r0 * (A cvd * A cvd) - 4 * B cvd * (r0 - rv)).
Proof.
  intros HC. unfold disc, coeff2, coeff1, coeff0. rewrite HC. ring.
Qed.

(** X5.  On a model built without the subzero term and with [r0 > 0], the
    value [temperature] returns is a real number exactly when [r_measured]
    does not exceed the maximum of the parabola,
    [r0 * (1 - A^2 / (4*B))]; above it the discriminant is negative. *)
Theorem temperature_real_iff_bounded (ord : root_order) (standard : string)
  (cvd : CallendarVanDusen) (r0 rv : Q) :
  init standard false = Ok cvd -> 0 < r0 ->
  exists s a b c,
    temperature ord cvd r0 rv = Ok (QuadRoot s a b c) /\
    (0 <= disc a b c <-> rv <= r0 * (1 - A cvd * A cvd / (4 * B cvd))).
Proof.
  intros Hi Hr.
  assert (Hr0 : ~ r0 == 0) by (intros E; rewrite E in Hr; discriminate Hr).
  destruct (init_inv _ _ _ Hi) as (HA & HB & _ & Hf).
  pose proof (Hf eq_refl) as HC.
  destruct (init_degree _ _ _ r0 Hi Hr0) as [[E _] | (_ & H3 & H2)];
    [discriminate E |].
  exists (match ord with PlusSecond => Plus | MinusSecond => Minus end),
    (coeff2 cvd r0), (coeff1 cvd r0), (coeff0 cvd r0 rv).
  split.
  - unfold temperature. rewrite (solve_quadratic _ _ _ H3 H2).
    destruct ord; reflexivity.
  - rewrite (disc_quadratic cvd r0 rv HC).
    assert (HB0 : ~ B cvd == 0) by (intros E; rewrite E in HB; discriminate HB).
    assert (Hbound : r0 * (1 - A cvd * A cvd / (4 * B cvd)) - rv ==
                     (r0 * (A cvd * A cvd) - 4 * B cvd * (r0 - rv))
                     * (/ (- (4) * B cvd))).
    { field. exact HB0. }
    assert (Hpos : 0 < / (- (4) * B cvd)).
    { apply Qinv_lt_0_compat.
      setoid_replace (- (4) * B cvd) with (4 * - B cvd) by ring.
      apply Qmult_lt_0_compat; [reflexivity |].
      apply (Qplus_lt_l _ _ (B cvd)). ring_simplify. exact HB. }
    set (k := / (- (4) * B cvd)) in *.
    set (m := r0 * (A cvd * A cvd) - 4 * B cvd * (r0 - rv)) in *.
    set (bnd := r0 * (1 - A cvd * A cvd / (4 * B cvd))) in *.
    clearbody k m bnd.
    split.
    + intros Hd.
      assert (Hm : 0 <= m) by nra.
      assert (Hmk : 0 <= m * k) by nra.
      lra.
    + intros Hle.
      assert (Hmk : 0 <= m * k) by lra.
      assert (Hm : 0 <= m) by nra.
      nra.
Qed.

Lemma temperature_real_iff_bounded_witness :
  exists cvd,
    init "DIN43760" false = Ok cvd /\
    exists s a b c,
      temperature PlusSecond cvd 100.0 138.5 = Ok (QuadRoot s a b c) /\
      (0 <= disc a b c <->
       138.5 <= 100.0 * (1 - A cvd * A cvd / (4 * B cvd))).
Proof.
  eexists. split; [reflexivity |].
  apply (temperature_real_iff_bounded PlusSecond "DIN43760");
    reflexivity.
Defined.

(** X6.  A negative [r0] with a non-negative [r_measured] is not only
    accepted: on a model built without the subzero term the discriminant is
    then positive, so the value returned is a real number that solves the
    governing equation. *)
Theorem temperature_negative_r0_real (ord : root_order) (standard : string)
  (cvd : CallendarVanDusen) (r0 rv : Q) :
  init standard false = Ok cvd -> r0 < 0 -> 0 <= rv ->
  exists s a b c,
    temperature ord cvd r0 rv = Ok (QuadRoot s a b c) /\
    0 < disc a b c /\
    cvd_equation cvd r0 rv (quad_root_R s a b c).
Proof.
  intros Hi Hr Hv.
  assert (Hr0 : ~ r0 == 0) by (intros E; rewrite E in Hr; discriminate Hr).
  destruct (init_inv _ _ _ Hi) as (HA & HB & _ & Hf).
  pose proof (Hf eq_refl) as HC.
  destruct (init_degree _ _ _ r0 Hi Hr0) as [[E _] | (_ & H3 & H2)];
    [discriminate E |].
  assert (Hd : 0 < disc (coeff2 cvd r0) (coeff1 cvd r0) (coeff0 cvd r0 rv)).
  { rewrite (disc_quadratic cvd r0 rv HC).
    set (x := A cvd) in *. set (y := B cvd) in *. clearbody x y.
    assert (Hxx : 0 <= x * x) by nra.
    assert (Hin : r0 * (x * x) - 4 * y * (r0 - rv) < 0) by nra.
    nra. }
  exists (match ord with PlusSecond => Plus | MinusSecond => Minus end),
    (coeff2 cvd r0), (coeff1 cvd r0), (coeff0 cvd r0 rv).
  split; [| split; [exact Hd |]].
  - unfold temperature. rewrite (solve_quadratic _ _ _ H3 H2).
    destruct ord; reflexivity.
  - apply (quadratic_root_solves_equation _ cvd r0 rv H3 H2).
    apply Qlt_le_weak, Hd.
Qed.

Lemma temperature_negative_r0_real_witness :
  exists cvd,
    init "American" false = Ok cvd /\
    exists s a b c,
      temperature MinusSecond cvd (-100.0) 138.5 = Ok (QuadRoot s a b c) /\
      0 < disc a b c /\
      cvd_equation cvd (-100.0) 138.5 (quad_root_R s a b c).
Proof.
  eexists. split; [reflexivity |].
  apply (temperature_negative_r0_real MinusSecond "American");
    [reflexivity | reflexivity | discriminate].
Defined.

(** X7.  Inverting the forward polynomial on a model built without the
    subzero term, with [r0] not zero: whichever root the solver lists
    second, the value [temperature] returns for [forward t] is either [t]
    itself or its mirror image [-A/B - t] on the other branch of the
    parabola. *)
Theorem round_trip_either_branch (ord : root_order) (standard : string)
  (cvd : CallendarVanDusen) (r0 tq : Q) :
  init standard false = Ok cvd -> ~ r0 == 0 ->
  exists s a b c,
    temperature ord cvd r0 (forward cvd r0 tq) = Ok (QuadRoot s a b c) /\
    (quad_root_R s a b c = Q2R tq \/
     quad_root_R s a b c = (- Q2R (A cvd) / Q2R (B cvd) - Q2R tq)%R).
Proof.
  intros Hi Hr0.
  destruct (init_inv _ _ _ Hi) as (HA & HB & _ & Hf).
  pose proof (Hf eq_refl) as HC.
  destruct (init_degree _ _ _ r0 Hi Hr0) as [[E _] | (_ & H3 & H2)];
    [discriminate E |].
  exists (match ord with PlusSecond => Plus | MinusSecond => Minus end),
    (coeff2 cvd r0), (coeff1 cvd r0), (coeff0 cvd r0 (forward cvd r0 tq)).
  split.
  - unfold temperature. rewrite (solve_quadratic _ _ _ H3 H2).
    destruct ord; reflexivity.
  - destruct (coeffs_R_quadratic cvd r0 (forward cvd r0 tq) HC)
      as (_ & E2 & E1 & _).
    pose proof (Q2R_nonzero _ Hr0) as Hr0'.
    apply Qlt_Rlt in HB. rewrite Q2R_zero in HB.
    unfold quad_root_R.
    rewrite (round_trip_disc cvd r0 tq HC), sqrt_Rsqr_abs, E1, E2.
    unfold Rabs.
    destruct (Rcase_abs (Q2R r0 * (Q2R (A cvd) + 2 * Q2R (B cvd) * Q2R tq)));
      destruct ord; simpl;
      first [ left; field; split; lra | right; field; split; lra ].
Qed.

Lemma round_trip_either_branch_witness :
  exists cvd,
    init "ITS-90" false = Ok cvd /\
    exists s a b c,
      temperature PlusSecond cvd 100.0 (forward cvd 100.0 25.0) =
        Ok (QuadRoot s a b c) /\
      (quad_root_R s a b c = Q2R 25.0 \/
       quad_root_R s a b c = (- Q2R (A cvd) / Q2R (B cvd) - Q2R 25.0)%R).
Proof.
  eexists. split; [reflexivity |].
  apply (round_trip_either_branch PlusSecond "ITS-90");
    [reflexivity | discriminate].
Defined.

(** ** The value the script prints *)

Lemma sqrt_enclosure (x lo hi : R) :
  (0 <= lo)%R -> (lo * lo < x)%R -> (x < hi * hi)%R -> (0 <= hi)%R ->
  (lo < sqrt x < hi)%R.
Proof.
  intros Hlo Hl Hh Hhi. split.
  - rewrite <- (sqrt_square lo Hlo) at 1. apply sqrt_lt_1_alt. nra.
  - rewrite <- (sqrt_square hi Hhi) at 1. apply sqrt_lt_1_alt. nra.
Qed.

(** X8.  The script's second line carries the root of
    [500*(1 + A*t + B*t^2) = 200] for the DIN43760 coefficients that the
    solver lists second: about -150.18 when that is the plus root, about
    6885.9 when it is the minus root. *)
Theorem script_temperature_value
  (cubic_is_real : nat -> Q -> Q -> Q -> Q -> bool) (ord : root_order) :
  exists s a b c,
    script cubic_is_real ord =
      ([ {| template := "Resistance = %g"; arg := PyFloat 200.0 |};
         {| template := "Temperature = %g";
            arg := SymNumber (QuadRoot s a b c) |} ],
       Ok tt) /\
    match ord with
    | PlusSecond => (-150.19 < quad_root_R s a b c < -150.18)%R
    | MinusSecond => (6885.90 < quad_root_R s a b c < 6885.91)%R
    end.
Proof.
  destruct (init "DIN43760" false) as [cvd |] eqn:Hi; [| discriminate Hi].
  injection Hi as Hcvd.
  exists (match ord with PlusSecond => Plus | MinusSecond => Minus end),
    (coeff2 cvd 500.0), (coeff1 cvd 500.0), (coeff0 cvd 500.0 200.0).
  split.
  - subst cvd. destruct ord; vm_compute; reflexivity.
  - assert (Ea : Q2R (coeff2 cvd 500.0) = (-0.000290095)%R).
    { subst cvd. unfold Q2R. simpl. lra. }
    assert (Eb : Q2R (coeff1 cvd 500.0) = 1.954%R).
    { subst cvd. unfold Q2R. simpl. lra. }
    assert (Ec : Q2R (coeff0 cvd 500.0 200.0) = 300%R).
    { subst cvd. unfold Q2R. simpl. lra. }
    unfold quad_root_R. rewrite Q2R_disc, Ea, Eb, Ec.
    set (d := (1.954 * 1.954 - 4 * -0.000290095 * 300)%R).
    assert (Hw : (2.041134 < sqrt d < 2.041135)%R).
    { apply sqrt_enclosure; unfold d; lra. }
    set (w := sqrt d) in *. clearbody w.
    destruct ord; simpl; lra.
Qed.
